(** * abeilles: the data-loading scripts

    A shallow embedding of the two scripts of the repository that compute
    something:

    - [loaddata3.py], [generer_urls_parquet_quotidien]: the table that maps a
      range of years onto the period labels of the Parquet files published on
      data.gouv.fr, and the two URL lists built from it; [afficher_urls],
      [sauvegarder_urls_fichier] and the command line of the script, over a
      world made of the printed lines and of the files by name;
    - [loaddata2.py], [get_gdd_from_open_meteo]: the growing-degree-day sum
      computed from the daily series returned by the Open-Meteo archive, in
      binary64 as pandas and numpy compute it, with the date parser and the
      request as oracles; the three column operations are also read over the
      rationals, for the properties that rounding does not touch.

    Python integers are [Z], Python strings are [string], Python lists are
    [list] with [append] written as [++ [x]]. *)

From Stdlib Require Import ZArith QArith Qminmax Qpower Lia Lqa Ascii Floats.
From stdpp Require Import base decidable list strings pretty gmap.

Local Open Scope string_scope.
Local Open Scope list_scope.
Local Open Scope Z_scope.

(** ** loaddata3.py *)

Module Loaddata3.

(** Line 29. *)
Definition base_url : string :=
  "https://object.files.data.gouv.fr/meteofrance-mistermeteo/".

(** Lines 36-58: the list [periodes], filled by four guarded blocks of
    [append]s, in this order. *)
Definition periodes (annee_debut annee_fin : Z) : list string :=
  let periodes : list string := [] in
  let periodes :=
    if annee_debut <=? 1949
    then periodes ++ ["previous-1950"]
    else periodes in
  let periodes :=
    if (annee_debut <=? 1989) && (annee_fin >=? 1950)
    then (((periodes ++ ["1950-1959"]) ++ ["1960-1969"])
            ++ ["1970-1979"]) ++ ["1980-1989"]
    else periodes in
  let periodes :=
    if (annee_debut <=? 2021) && (annee_fin >=? 1990)
    then (((periodes ++ ["1990-1999"]) ++ ["2000-2009"])
            ++ ["2010-2019"]) ++ ["2020-2021"]
    else periodes in
  let periodes :=
    if annee_fin >=? 2022
    then ((periodes ++ ["latest-2022-2023"]) ++ ["latest-2023-2024"])
           ++ ["latest-2024-2025"]
    else periodes in
  periodes.

(** Line 66: [f"{base_url}quotidien.{periode}.parquet"]. *)
Definition url_brut (periode : string) : string :=
  base_url +:+ "quotidien." +:+ periode +:+ ".parquet".

(** Line 70: [f"{base_url}quotidien.{periode}.prepared.parquet"]. *)
Definition url_prepared (periode : string) : string :=
  base_url +:+ "quotidien." +:+ periode +:+ ".prepared.parquet".

(** Lines 64-71: one turn of the [for] loop, on the pair of lists
    [(urls, urls_prepared)]. *)
Definition ajouter_urls (acc : list string * list string) (periode : string)
  : list string * list string :=
  let '(urls, urls_prepared) := acc in
  (urls ++ [url_brut periode], urls_prepared ++ [url_prepared periode]).

(** Lines 9-73. *)
Definition generer_urls_parquet_quotidien (annee_debut annee_fin : Z)
  : list string * list string :=
  foldl ajouter_urls ([], []) (periodes annee_debut annee_fin).

(** Every label the table knows, oldest first. *)
Definition toutes_periodes : list string :=
  [ "previous-1950";
    "1950-1959"; "1960-1969"; "1970-1979"; "1980-1989";
    "1990-1999"; "2000-2009"; "2010-2019"; "2020-2021";
    "latest-2022-2023"; "latest-2023-2024"; "latest-2024-2025" ].

(** *** What the script prints and writes

    The world of the script. Strings hold the UTF-8 bytes of the source
    text. *)

(** What [open(nom, 'w')] does: it opens a file, named here by the file
    itself (two names of one file give the same [fichier]), or it raises an
    [OSError], named by its class ([FileNotFoundError] for an empty name or a
    directory that does not exist, [PermissionError], ...). *)
Inductive ouverture : Type :=
  | Ouvert (fichier : string)
  | Erreur (classe : string).

(** [fichiers]: the text held by each file, one key per file.
    [sortie]: the lines printed so far ([print] ends each with a newline).
    [open_w]: what [open] does with each name in this file system.
    [exception]: the uncaught exception that ended the run, if any. Once a
    file is open, the writes and the close are taken to succeed. *)
Record Monde : Type := {
  fichiers : gmap string string;
  sortie : list string;
  open_w : string -> ouverture;
  exception : option string
}.

Definition print (ligne : string) (m : Monde) : Monde :=
  {| fichiers := fichiers m;
     sortie := sortie m ++ [ligne];
     open_w := open_w m;
     exception := exception m |}.

(** One statement after the other. *)
Definition seq (c1 c2 : Monde -> Monde) : Monde -> Monde :=
  fun m => c2 (c1 m).
Infix ";;;" := seq (at level 90, right associativity).

Definition passer : Monde -> Monde := fun m => m.

(** [for x in l: corps]. *)
Definition pour {A : Type} (l : list A) (corps : A -> Monde -> Monde)
  : Monde -> Monde :=
  fun m => foldl (fun m x => corps x m) m l.

(** [enumerate(l, start)]. *)
Fixpoint enumerate {A : Type} (start : Z) (l : list A) : list (Z * A) :=
  match l with
  | [] => []
  | x :: l => (start, x) :: enumerate (start + 1) l
  end.

(** [s * n] on a string. *)
Fixpoint str_mul (s : string) (n : nat) : string :=
  match n with
  | O => ""
  | S n => s +:+ str_mul s n
  end.

(** The newline and the double quote. *)
Definition nl : string := String (Ascii.ascii_of_nat 10) "".
Definition guillemet : string := String (Ascii.ascii_of_nat 34) "".

(** [f.write(s)] on the text written so far, and the end of the [with]
    block of a file opened with mode ['w']: the text written replaces
    whatever the file held. *)
Definition write (f s : string) : string := f +:+ s.

Definition fermer (fichier f : string) (m : Monde) : Monde :=
  {| fichiers := <[fichier := f]> (fichiers m);
     sortie := sortie m;
     open_w := open_w m;
     exception := exception m |}.

(** An exception that nothing catches: the run ends there. *)
Definition lever (classe : string) (m : Monde) : Monde :=
  {| fichiers := fichiers m;
     sortie := sortie m;
     open_w := open_w m;
     exception := Some classe |}.

(** Lines 211-230. *)
Definition sauvegarder_urls_fichier (annee_debut annee_fin : Z)
    (nom_fichier : string) : Monde -> Monde :=
  fun m =>
  let '(urls_brut, urls_prepared) :=
    generer_urls_parquet_quotidien annee_debut annee_fin in
  match open_w m nom_fichier with
  | Erreur classe => lever classe m
  | Ouvert fichier =>
  let f := "" in
  let f := write f ("# URLs Parquet - Données météo quotidiennes "
                      +:+ pretty annee_debut +:+ "-" +:+ pretty annee_fin
                      +:+ nl) in
  let f := write f ("# Département 67 (Bas-Rhin)" +:+ nl) in
  let f := write f ("# Note: Ces fichiers contiennent tous les départements"
                      +:+ nl +:+ nl) in
  let f := write f ("# FICHIERS PRÉPARÉS (recommandés)" +:+ nl) in
  let f := foldl (fun f url => write f (url +:+ nl)) f urls_prepared in
  let f := write f (nl +:+ "# FICHIERS BRUTS (alternatifs)" +:+ nl) in
  let f := foldl (fun f url => write f (url +:+ nl)) f urls_brut in
  (fermer fichier f ;;;
   print ("✓ URLs sauvegardées dans: " +:+ nom_fichier)) m
  end.

(** The dictionary [data] of lines 119-124. *)
Record Rapport : Type := {
  periode : string;
  fichiers_prepares : list string;
  fichiers_bruts : list string;
  note : string
}.

(** Lines 92-101. *)
Definition entete (annee_debut annee_fin : Z) : Monde -> Monde :=
  print (str_mul "=" 80) ;;;
  print ("URLs des fichiers Parquet pour les données quotidiennes "
           +:+ pretty annee_debut +:+ "-" +:+ pretty annee_fin) ;;;
  print (str_mul "=" 80) ;;;
  print "" ;;;
  print "IMPORTANT:" ;;;
  print "- Ces fichiers contiennent les données pour TOUS les départements" ;;;
  print "- Vous devrez filtrer les données pour le département 67 après téléchargement" ;;;
  print "- Les fichiers '.prepared' sont recommandés (colonnes nettoyées et typées)" ;;;
  print "".

(** Lines 144-195 and 200-208, the two texts printed at the end. *)
Definition texte_utilisation : string := "
1. Télécharger les fichiers Parquet:
   
   import requests
   for url in urls_prepared:
       nom_fichier = url.split('/')[-1]
       response = requests.get(url)
       with open(nom_fichier, 'wb') as f:
           f.write(response.content)

2. Lire et filtrer les données (requiert: pip install pandas pyarrow):
   
   import pandas as pd
   
   # Lire un fichier Parquet
   df = pd.read_parquet('quotidien.1990-1999.prepared.parquet')
   
   # Filtrer pour le département 67
   # (La colonne exacte peut varier: 'NUM_POSTE', 'DEPT', etc.)
   df_67 = df[df['NUM_POSTE'].str.startswith('67')]
   
   # Ou si la colonne département existe:
   # df_67 = df[df['DEPT'] == '67']
   
   # Filtrer par période (1990-2020)
   df_67 = df_67[(df_67['AAAAMMJJ'] >= 19900101) & (df_67['AAAAMMJJ'] <= 20201231)]
   
3. Combiner plusieurs fichiers:
   
   import pandas as pd
   import glob
   
   # Lire tous les fichiers Parquet
   fichiers = glob.glob('quotidien.*.prepared.parquet')
   
   dfs = []
   for fichier in fichiers:
       df = pd.read_parquet(fichier)
       # Filtrer pour le département 67
       df_67 = df[df['NUM_POSTE'].str.startswith('67')]
       dfs.append(df_67)
   
   # Combiner tous les DataFrames
   df_final = pd.concat(dfs, ignore_index=True)
   
   # Trier par date
   df_final = df_final.sort_values('AAAAMMJJ')
   
   # Sauvegarder
   df_final.to_parquet('meteo_dep67_1990_2020.parquet')
   df_final.to_csv('meteo_dep67_1990_2020.csv', index=False)
".

Definition texte_informations : string := "
- Source: data.gouv.fr (Maxime Pawlak - Mister Meteo)
- Dataset: https://www.data.gouv.fr/fr/datasets/parquet-donnees-climatologiques-de-base-mensuelles-quotidiennes-horaires-6-minutes-format-parquet/
- Licence: Licence Ouverte 2.0
- Format: Parquet (optimisé, compressé)
- Contenu: Toutes les stations de tous les départements
- Mise à jour: Hebdomadaire pour les données récentes
- Contact dataset: contact@mistermeteo.com
".

(** Lines 140-208. *)
Definition pied : Monde -> Monde :=
  print "" ;;;
  print (str_mul "=" 80) ;;;
  print "COMMENT UTILISER CES FICHIERS:" ;;;
  print (str_mul "=" 80) ;;;
  print texte_utilisation ;;;
  print (str_mul "=" 80) ;;;
  print "INFORMATIONS SUPPLÉMENTAIRES:" ;;;
  print (str_mul "=" 80) ;;;
  print texte_informations.

Section Affichage.

(** [json.dumps(data, indent=2, ensure_ascii=False)]: the serialisation is
    the library's. *)
Variable json_dumps : Rapport -> string.

(** Lines 76-208. *)
Definition afficher_urls (annee_debut annee_fin : Z) (format_sortie : string)
  : Monde -> Monde :=
  let '(urls_brut, urls_prepared) :=
    generer_urls_parquet_quotidien annee_debut annee_fin in
  entete annee_debut annee_fin ;;;
  (if String.eqb format_sortie "texte" then
     print (str_mul "-" 80) ;;;
     print "FICHIERS PRÉPARÉS (recommandés):" ;;;
     print (str_mul "-" 80) ;;;
     pour (enumerate 1 urls_prepared)
          (fun '(i, url) => print (pretty i +:+ ". " +:+ url)) ;;;
     print "" ;;;
     print (str_mul "-" 80) ;;;
     print "FICHIERS BRUTS (alternatifs):" ;;;
     print (str_mul "-" 80) ;;;
     pour (enumerate 1 urls_brut)
          (fun '(i, url) => print (pretty i +:+ ". " +:+ url))
   else if String.eqb format_sortie "json" then
     let data :=
       {| periode := pretty annee_debut +:+ "-" +:+ pretty annee_fin;
          fichiers_prepares := urls_prepared;
          fichiers_bruts := urls_brut;
          note := "Filtrer par département 67 après téléchargement" |} in
     print (json_dumps data)
   else if String.eqb format_sortie "python" then
     print "# Liste des URLs (fichiers préparés)" ;;;
     print "urls_prepared = [" ;;;
     pour urls_prepared
          (fun url => print ("    " +:+ guillemet +:+ url +:+ guillemet +:+ ",")) ;;;
     print "]" ;;;
     print "" ;;;
     print "# Liste des URLs (fichiers bruts)" ;;;
     print "urls_brut = [" ;;;
     pour urls_brut
          (fun url => print ("    " +:+ guillemet +:+ url +:+ guillemet +:+ ",")) ;;;
     print "]"
   else passer) ;;;
  pied.

(** Lines 251-257, the usage text of [--help]. *)
Definition aide : Monde -> Monde :=
  print "Usage: python lister_urls_parquet.py [OPTIONS]" ;;;
  print "" ;;;
  print "Options:" ;;;
  print "  --json     Afficher les URLs au format JSON" ;;;
  print "  --python   Afficher les URLs comme liste Python" ;;;
  print "  --save     Sauvegarder les URLs dans un fichier texte" ;;;
  print "  --help     Afficher cette aide".

(** Lines 233-261, the script run with the command line [argv]
    ([sys.argv], the name of the script first). [sys.exit(0)] ends the run
    where it stands. *)
Definition main (argv : list string) : Monde -> Monde :=
  let annee_debut := 1950 in
  let annee_fin := 2020 in
  let format_sortie := "texte" in
  if (1 <? length argv)%nat then
    let argv1 := default "" (argv !! 1%nat) in
    if String.eqb argv1 "--json" then
      afficher_urls annee_debut annee_fin "json"
    else if String.eqb argv1 "--python" then
      afficher_urls annee_debut annee_fin "python"
    else if String.eqb argv1 "--save" then
      sauvegarder_urls_fichier annee_debut annee_fin "urls_parquet.txt"
    else if String.eqb argv1 "--help" then
      aide
    else
      afficher_urls annee_debut annee_fin format_sortie
  else
    afficher_urls annee_debut annee_fin format_sortie.

End Affichage.

(** *** Statement vocabulary *)

(** [s.split(newline)]: the lines of a text. *)
Fixpoint lignes (s : string) : list string :=
  match s with
  | "" => [""]
  | String c s =>
      if Ascii.eqb c (Ascii.ascii_of_nat 10) then "" :: lignes s
      else match lignes s with
           | l :: ls => String c l :: ls
           | [] => [String c ""]
           end
  end.

(** A string that holds no newline. *)
Fixpoint sans_saut (s : string) : bool :=
  match s with
  | "" => true
  | String c s => negb (Ascii.eqb c (Ascii.ascii_of_nat 10)) && sans_saut s
  end.

(** A command that only prints the lines [l], in this order, and leaves the
    files as they are. *)
Definition affiche (c : Monde -> Monde) (l : list string) : Prop :=
  forall m : Monde,
    c m = {| fichiers := fichiers m;
             sortie := sortie m ++ l;
             open_w := open_w m;
             exception := exception m |}.

(** The lines that a command prints, read in an empty world. *)
Definition lignes_de (c : Monde -> Monde) : list string :=
  sortie (c {| fichiers := ∅;
               sortie := [];
               open_w := fun _ => Erreur "OSError";
               exception := None |}).

(** The text made of the lines [l], each ended by a newline. *)
Definition joindre (l : list string) : string :=
  foldr (fun ligne texte => ligne +:+ nl +:+ texte) "" l.

(** The lines ["1. x1"], ["2. x2"], ... for the list [x1; x2; ...]. *)
Definition numeroter (l : list string) : list string :=
  imap (fun i x => pretty (1 + Z.of_nat i) +:+ ". " +:+ x) l.

(** The file that holds the data of a year up to 2021, from the names of
    the labels; the years from 2022 on are in the "latest-" files. *)
Definition periode_de (annee : Z) : option string :=
  if annee <=? 1949 then Some "previous-1950"
  else if annee <=? 1959 then Some "1950-1959"
  else if annee <=? 1969 then Some "1960-1969"
  else if annee <=? 1979 then Some "1970-1979"
  else if annee <=? 1989 then Some "1980-1989"
  else if annee <=? 1999 then Some "1990-1999"
  else if annee <=? 2009 then Some "2000-2009"
  else if annee <=? 2019 then Some "2010-2019"
  else if annee <=? 2021 then Some "2020-2021"
  else None.

End Loaddata3.

(** ** loaddata2.py, lines 33-35 in exact arithmetic

    The three column operations of lines 33-35 read over the rationals: a
    cell is [option Q], [Some q] for the number [q] and [None] for NaN, and
    no operation rounds. This reading serves the properties of the daily
    contribution and of the sum that do not depend on rounding; the module
    [Loaddata2F64] below follows the function in binary64. *)

Module Loaddata2.

Local Open Scope Q_scope.

Definition cell : Type := option Q.

(** *** The data frame (lines 27-31)

    The columns ['date'], ['t_max'] and ['t_min'] of [temps]. The dates are
    kept as the reply gives them: they take no part in the computation. *)

Record DataFrame : Type := {
  date : list string;
  t_max : list cell;
  t_min : list cell
}.

(** *** Series arithmetic (lines 33-35)

    Element by element; NaN is absorbing. *)

Definition cell_add (a b : cell) : cell :=
  match a, b with
  | Some x, Some y => Some (x + y)
  | _, _ => None
  end.

(** [s1 + s2], for two columns of one frame. *)
Definition series_add (s1 s2 : list cell) : list cell :=
  zip_with cell_add s1 s2.

(** [s / k]. *)
Definition series_div (s : list cell) (k : Q) : list cell :=
  (fun c : cell => (fun x => x / k) <$> c) <$> s.

(** [s - k]. *)
Definition series_sub (s : list cell) (k : Q) : list cell :=
  (fun c : cell => (fun x => x - k) <$> c) <$> s.

(** One number clipped from below. *)
Definition clip_value (lower x : Q) : Q :=
  if Qle_bool lower x then x else lower.

(** [s.clip(lower=lower)]: a NaN stays a NaN. *)
Definition series_clip (s : list cell) (lower : Q) : list cell :=
  (fun c : cell => clip_value lower <$> c) <$> s.

(** [s.sum()]: pandas skips the NaN cells ([skipna=True] is the default) and
    the sum of no cell is 0. *)
Definition sum_step (acc : Q) (c : cell) : Q :=
  match c with
  | Some x => acc + x
  | None => acc
  end.

Definition series_sum (s : list cell) : Q := foldl sum_step 0 s.

(** Line 33, the column ['t_mean']. *)
Definition t_mean (temps : DataFrame) : list cell :=
  series_div (series_add (t_max temps) (t_min temps)) 2.

(** Line 34, the column ['gdd_daily']. *)
Definition gdd_daily (temps : DataFrame) (t_base : Q) : list cell :=
  series_clip (series_sub (t_mean temps) t_base) 0.

(** Line 35. *)
Definition gdd_cumul (temps : DataFrame) (t_base : Q) : Q :=
  series_sum (gdd_daily temps t_base).

(** *** Statement vocabulary *)

(** The record of one day, as the data model of the specification has it. *)
Record DailyTemperature : Type := {
  day_date : string;
  day_t_max : cell;
  day_t_min : cell
}.

(** The frame that holds a series of days. *)
Definition frame_of (jours : list DailyTemperature) : DataFrame :=
  {| date := day_date <$> jours;
     t_max := day_t_max <$> jours;
     t_min := day_t_min <$> jours |}.

(** A day whose two temperatures are recorded. *)
Definition recorded (d : string) (tmax tmin : Q) : DailyTemperature :=
  {| day_date := d; day_t_max := Some tmax; day_t_min := Some tmin |}.

(** The formula of the specification for one day:
    max(0, (t_max + t_min)/2 - t_base). *)
Definition gdd_formula (t_base tmax tmin : Q) : Q :=
  Qmax 0 ((tmax + tmin) / 2 - t_base).

(** A cell that is NaN or a non-negative number. *)
Definition cell_nonneg (c : cell) : Prop :=
  match c with
  | Some x => 0 <= x
  | None => True
  end.


(** The same sum over a series where a temperature may be missing: only the
    days that have both temperatures count. *)
Definition gdd_available (t_base : Q) (j : DailyTemperature) : Q :=
  match day_t_max j, day_t_min j with
  | Some tmax, Some tmin => gdd_formula t_base tmax tmin
  | _, _ => 0
  end.



End Loaddata2.

(** ** loaddata2.py in binary64

    [get_gdd_from_open_meteo] as pandas and numpy run it. A float64 cell is
    a primitive binary64 float, NaN included (how a JSON [null] is stored);
    a column of JSON integers is an int64 column, whose additions wrap
    around. The three library calls that reach outside the program are
    oracles, each of which may raise: [pd.to_datetime] on the target date
    (line 9) and on the array of dates (line 28), and [requests.get]
    followed by [response.json()] (lines 23-24). *)

Module Loaddata2F64.

(** What a call does: it returns a value, or raises an exception named by
    its class, or leaves the part of Python that is modelled here
    ([Unmodelled]: nothing is stated about it). *)
Inductive outcome (A : Type) : Type :=
  | Returned (v : A)
  | Raised (classe : string)
  | Unmodelled.
Arguments Returned {A} v.
Arguments Raised {A} classe.
Arguments Unmodelled {A}.

#[global] Instance outcome_ret : MRet outcome := fun A v => Returned v.
#[global] Instance outcome_bind : MBind outcome :=
  fun A B k x =>
    match x with
    | Returned v => k v
    | Raised classe => Raised classe
    | Unmodelled => Unmodelled
    end.

(** *** JSON and subscripts *)

(** The value that [response.json()] builds. *)
#[warnings="-register-all"] Inductive json : Type :=
  | JNull
  | JBool (b : bool)
  | JInt (z : Z)
  | JFloat (f : float)
  | JString (s : string)
  | JArray (l : list json)
  | JObject (m : gmap string json).

(** [v[key]] with a string key: a dict looks the key up, every other value
    refuses the subscript. *)
Definition getitem (v : json) (key : string) : outcome json :=
  match v with
  | JObject m =>
      match m !! key with
      | Some x => Returned x
      | None => Raised "KeyError"
      end
  | _ => Raised "TypeError"
  end.

(** *** Dates *)

(** What [pd.to_datetime] returns for one string. *)
Inductive datetime : Type :=
  | Timestamp (year month day : Z)
  | NaT.

(** [f"{t.year}"]: the year of [NaT] is the float nan. *)
Definition year_str (t : datetime) : string :=
  match t with
  | Timestamp year _ _ => pretty year
  | NaT => "nan"
  end.

(** *** The request (lines 9-21) *)

Record Params : Type := {
  latitude : float;
  longitude : float;
  start_date : string;
  end_date : string;
  daily : string;
  timezone : string
}.

Definition url : string := "https://archive-api.open-meteo.com/v1/archive".

(** Lines 9-21, once the target date is parsed: the range starts on
    January 1 of its year and ends on the date as it was given. *)
Definition params (lat lon : float) (date : string) (parsed : datetime)
  : Params :=
  let year := year_str parsed in
  let start_date := year +:+ "-01-01" in
  {| latitude := lat;
     longitude := lon;
     start_date := start_date;
     end_date := date;
     daily := "temperature_2m_max,temperature_2m_min";
     timezone := "auto" |}.

(** *** Columns (lines 27-31) *)

(** A column of numbers, by its dtype. *)
Inductive Series : Type :=
  | Int64 (l : list Z)
  | Float64 (l : list float).


Definition int64_min : Z := - 2 ^ 63.
Definition int64_max : Z := 2 ^ 63 - 1.

(** An int64 result, wrapped around. *)
Definition wrap64 (z : Z) : Z := (z + 2 ^ 63) mod 2 ^ 64 - 2 ^ 63.

(** The double nearest to an integer (ties to even). *)
Definition of_int64 (z : Z) : float :=
  SF2Prim (binary_normalize prec emax z 0 false).

Definition as_int64 (v : json) : option Z :=
  match v with
  | JInt z => if (int64_min <=? z)%Z && (z <=? int64_max)%Z
              then Some z else None
  | _ => None
  end.

Definition as_float64 (v : json) : option float :=
  match v with
  | JInt z => if (int64_min <=? z)%Z && (z <=? int64_max)%Z
              then Some (of_int64 z) else None
  | JFloat f => Some f
  | JNull => Some nan
  | _ => None
  end.

Definition is_number (v : json) : bool :=
  match v with
  | JInt _ | JFloat _ => true
  | _ => false
  end.

(** The column pandas makes of a list: int64 for integers only; float64,
    with NaN for [null], as soon as a float or a [null] stands among
    numbers. Every other list (empty, only [null], an integer out of the
    int64 range, a string, a boolean, a nested value) gives an object
    column, which is not modelled. *)
Definition as_series (l : list json) : option Series :=
  match l, mapM as_int64 l with
  | _ :: _, Some zs => Some (Int64 zs)
  | _, _ =>
      match mapM as_float64 l with
      | Some fs => if existsb is_number l then Some (Float64 fs) else None
      | None => None
      end
  end.

Record DataFrame : Type := {
  date : list datetime;
  t_max : Series;
  t_min : Series
}.

(** [pd.DataFrame({'date': ..., 't_max': ..., 't_min': ...})]: arrays of
    different lengths are refused before their contents are looked at. A
    value that is not a list is not modelled. *)
Definition pd_DataFrame (dates : list datetime) (maxs mins : json)
  : outcome DataFrame :=
  match maxs, mins with
  | JArray a, JArray b =>
      if (length dates =? length a)%nat && (length a =? length b)%nat
      then match as_series a, as_series b with
           | Some x, Some y =>
               Returned {| date := dates; t_max := x; t_min := y |}
           | _, _ => Unmodelled
           end
      else Raised "ValueError"
  | _, _ => Unmodelled
  end.

(** *** Column arithmetic (lines 33-35) *)

(** [s1 + s2]: int64 addition wraps around; an int64 column met by a
    float64 one is converted first. *)
Definition series_add (s1 s2 : Series) : Series :=
  match s1, s2 with
  | Int64 a, Int64 b => Int64 (zip_with (fun x y => wrap64 (x + y)) a b)
  | Int64 a, Float64 b =>
      Float64 (zip_with (fun x y => of_int64 x + y)%float a b)
  | Float64 a, Int64 b =>
      Float64 (zip_with (fun x y => x + of_int64 y)%float a b)
  | Float64 a, Float64 b => Float64 (zip_with PrimFloat.add a b)
  end.

(** [s / k]: true division, always in float64. *)
Definition series_div (s : Series) (k : float) : list float :=
  match s with
  | Int64 a => (fun x => of_int64 x / k)%float <$> a
  | Float64 a => (fun x => x / k)%float <$> a
  end.

(** [s - k]. *)
Definition series_sub (s : list float) (k : float) : list float :=
  (fun x => x - k)%float <$> s.

(** One cell of [s.clip(lower=lower)]: kept when it is at least [lower] or
    NaN, replaced by [lower] otherwise. *)
Definition clip_value (lower x : float) : float :=
  if (lower <=? x)%float then x
  else if is_nan x then x
  else lower.

Definition series_clip (s : list float) (lower : float) : list float :=
  clip_value lower <$> s.

(** numpy's pairwise sum: a plain loop under 8 values; up to 128 values, 8
    running sums over the full blocks of 8, added as a tree, then the
    values left over; above 128, two halves, the first a multiple of 8.
    (The plain loop starts from 0, in recent versions of numpy from -0:
    added to the 0 that [np_sum] starts from, both give the same double.) *)
Fixpoint add_blocks (r a : list float) (k : nat) : list float :=
  match k with
  | O => r
  | S k => add_blocks (zip_with PrimFloat.add r (take 8 a)) (drop 8 a) k
  end.

Definition block_sum (a : list float) : float :=
  let full := (length a / 8)%nat in
  let r := add_blocks (take 8 a) (drop 8 a) (full - 1) in
  let res :=
    match r with
    | [r0; r1; r2; r3; r4; r5; r6; r7] =>
        ((r0 + r1) + (r2 + r3)) + ((r4 + r5) + (r6 + r7))
    | _ => 0
    end%float in
  foldl PrimFloat.add res (drop (8 * full) a).

Fixpoint pairwise_sum_rec (fuel : nat) (a : list float) : float :=
  let n := length a in
  if (n <? 8)%nat then foldl PrimFloat.add 0%float a
  else if (n <=? 128)%nat then block_sum a
  else
    match fuel with
    | O => 0%float
    | S fuel =>
        let n2 := (n / 2 - (n / 2) mod 8)%nat in
        (pairwise_sum_rec fuel (take n2 a)
         + pairwise_sum_rec fuel (drop n2 a))%float
    end.

Definition pairwise_sum (a : list float) : float :=
  pairwise_sum_rec (length a) a.

(** [np.add.reduce]: the pairwise sum, added to the initial 0. *)
Definition np_sum (a : list float) : float := (0 + pairwise_sum a)%float.

Definition fillna0 (x : float) : float := if is_nan x then 0%float else x.

(** [s.sum()]: pandas puts 0 in the place of each NaN ([skipna=True]) and
    lets numpy add. *)
Definition series_sum (s : list float) : float := np_sum (fillna0 <$> s).

(** Line 33, the column ['t_mean']. *)
Definition t_mean (temps : DataFrame) : list float :=
  series_div (series_add (t_max temps) (t_min temps)) 2.

(** Line 34, the column ['gdd_daily']. *)
Definition gdd_daily (temps : DataFrame) (t_base : float) : list float :=
  series_clip (series_sub (t_mean temps) t_base) 0.

(** Line 35. *)
Definition gdd_cumul (temps : DataFrame) (t_base : float) : float :=
  series_sum (gdd_daily temps t_base).

(** *** The function (lines 4-37) *)

Section Accumulator.

(** [pd.to_datetime(date)], line 9. *)
Variable to_datetime : string -> outcome datetime.

(** [pd.to_datetime(...)] on the list of line 28. *)
Variable to_datetime_index : list json -> outcome (list datetime).

(** [requests.get(url, params=params)] then [response.json()]. *)
Variable requests_get : string -> Params -> outcome json.

Definition get_gdd_from_open_meteo (lat lon : float) (date : string)
    (t_base : float) : outcome float :=
  parsed ← to_datetime date;
  data ← requests_get url (params lat lon date parsed);
  block ← getitem data "daily";
  time ← getitem block "time";
  dates ← match time with
          | JArray l => to_datetime_index l
          | _ => Unmodelled
          end;
  maxs ← getitem block "temperature_2m_max";
  mins ← getitem block "temperature_2m_min";
  temps ← pd_DataFrame dates maxs mins;
  Returned (gdd_cumul temps t_base).

End Accumulator.

(** *** Statement vocabulary *)

(** The frame of a series of days given by their two float64 temperatures
    (NaN for a missing one). *)
Definition frame_of (jours : list (datetime * float * float)) : DataFrame :=
  {| date := (fun j => j.1.1) <$> jours;
     t_max := Float64 ((fun j => j.1.2) <$> jours);
     t_min := Float64 (snd <$> jours) |}.

(** A reply that carries a daily block with its three arrays. *)
Definition carries (data : json) (times maxs mins : list json) : Prop :=
  exists block : json,
    getitem data "daily" = Returned block
    /\ getitem block "time" = Returned (JArray times)
    /\ getitem block "temperature_2m_max" = Returned (JArray maxs)
    /\ getitem block "temperature_2m_min" = Returned (JArray mins).

(** The reply whose daily block holds these three arrays, and nothing
    else. *)
Definition reply_of (times maxs mins : list json) : json :=
  JObject
    {[ "daily" :=
         JObject (<["time" := JArray times]>
                    (<["temperature_2m_max" := JArray maxs]>
                       {[ "temperature_2m_min" := JArray mins ]})) ]}.

(** A cell with the dtype of its column. *)
Inductive nombre : Type :=
  | I (z : Z)
  | F (f : float).

Definition cells (s : Series) : list nombre :=
  match s with
  | Int64 l => I <$> l
  | Float64 l => F <$> l
  end.

(** The contribution of one day, operation by operation as the code
    computes it: clip at 0 of ((t_max + t_min) / 2 - t_base). *)
Definition gdd_jour (t_base : float) (tmax tmin : nombre) : float :=
  let somme :=
    match tmax, tmin with
    | I x, I y => of_int64 (wrap64 (x + y))
    | I x, F y => of_int64 x + y
    | F x, I y => x + of_int64 y
    | F x, F y => x + y
    end%float in
  clip_value 0 (somme / 2 - t_base)%float.



(** The formula of the specification for one day, over the rationals:
    max(0, (t_max + t_min)/2 - t_base). *)
Definition gdd_formula (t_base tmax tmin : Q) : Q :=
  Qmax 0 ((tmax + tmin) / 2 - t_base)%Q.

End Loaddata2F64.

(** * Properties of loaddata3.py *)

Module Loaddata3Facts.
Import Loaddata3.

(** The loop of lines 64-71 appends, to each list, the image of the labels. *)
Lemma foldl_ajouter_urls (l : list string) (urls urls_prepared : list string) :
  foldl ajouter_urls (urls, urls_prepared) l
  = (urls ++ (url_brut <$> l), urls_prepared ++ (url_prepared <$> l)).
Proof.
  revert urls urls_prepared.
  induction l as [|periode l IH]; intros urls urls_prepared; simpl.
  - by rewrite !app_nil_r.
  - rewrite IH. by rewrite <- !app_assoc.
Qed.

Lemma generer_urls_fmap (annee_debut annee_fin : Z) :
  generer_urls_parquet_quotidien annee_debut annee_fin
  = (url_brut <$> periodes annee_debut annee_fin,
     url_prepared <$> periodes annee_debut annee_fin).
Proof. unfold generer_urls_parquet_quotidien. by rewrite foldl_ajouter_urls. Qed.

(** The four guards, as a case analysis on the two years. *)
Ltac cas_periodes :=
  unfold periodes;
  repeat match goal with
         | |- context [Z.leb ?a ?b] => destruct (Z.leb_spec a b)
         | |- context [Z.geb ?a ?b] =>
             rewrite (Z.geb_leb a b); destruct (Z.leb_spec b a)
         end;
  simpl; try lia.

Lemma periodes_sublist (annee_debut annee_fin : Z) :
  periodes annee_debut annee_fin `sublist_of` toutes_periodes.
Proof.
  cas_periodes; unfold toutes_periodes;
    repeat first [ apply sublist_nil_l | apply sublist_skip | apply sublist_cons ].
Qed.

Lemma toutes_periodes_NoDup : NoDup toutes_periodes.
Proof. apply (bool_decide_unpack _). vm_compute. exact I. Qed.

(** Strings: cancelling a common suffix. *)
Lemma length_append (s t : string) :
  String.length (s +:+ t) = (String.length s + String.length t)%nat.
Proof.
  induction s as [|c s IH]; [reflexivity|].
  change (S (String.length (s +:+ t)) = S (String.length s + String.length t))%nat.
  by rewrite IH.
Qed.

Lemma append_inj_r (t a b : string) : a +:+ t = b +:+ t -> a = b.
Proof.
  revert b. induction a as [|c a IH]; intros [|c' b] H.
  - reflexivity.
  - apply (f_equal String.length) in H.
    rewrite !length_append in H. simpl in H. lia.
  - apply (f_equal String.length) in H.
    rewrite !length_append in H. simpl in H. lia.
  - change (String c (a +:+ t) = String c' (b +:+ t)) in H.
    injection H as -> H. f_equal. by apply IH.
Qed.

#[local] Instance url_brut_inj : Inj (=) (=) url_brut.
Proof.
  intros p q H. unfold url_brut in H.
  do 2 apply (inj (String.append _)) in H.
  by apply append_inj_r in H.
Qed.

#[local] Instance url_prepared_inj : Inj (=) (=) url_prepared.
Proof.
  intros p q H. unfold url_prepared in H.
  do 2 apply (inj (String.append _)) in H.
  by apply append_inj_r in H.
Qed.

Lemma url_brut_prepared_distinct (p : string) : url_brut p <> url_prepared p.
Proof.
  unfold url_brut, url_prepared. intros H.
  do 3 apply (inj (String.append _)) in H. discriminate H.
Qed.

(** C6. For the years (1990, 2020) the labels are exactly "1990-1999",
    "2000-2009", "2010-2019" and "2020-2021", each once: the prepared
    files are those of these four labels and of no other. *)
Theorem c6_labels_1990_2020 :
  let labels := ["1990-1999"; "2000-2009"; "2010-2019"; "2020-2021"] in
  periodes 1990 2020 = labels
  /\ (generer_urls_parquet_quotidien 1990 2020).2
     = (fun label => base_url +:+ "quotidien." +:+ label +:+ ".prepared.parquet")
         <$> labels
  /\ NoDup (generer_urls_parquet_quotidien 1990 2020).2
  /\ (forall label : string,
        url_prepared label ∈ (generer_urls_parquet_quotidien 1990 2020).2
        <-> label ∈ labels).
Proof.
  intros labels.
  assert (Hp : periodes 1990 2020 = labels) by reflexivity.
  assert (Hg : (generer_urls_parquet_quotidien 1990 2020).2
               = url_prepared <$> labels).
  { rewrite generer_urls_fmap, Hp. reflexivity. }
  split; [exact Hp|]. split; [exact Hg|]. split.
  - rewrite Hg. apply (NoDup_fmap_2 _).
    apply (bool_decide_unpack _). vm_compute. exact I.
  - intros label. rewrite Hg. split.
    + intros (q & Heq & Hq)%list_elem_of_fmap.
      apply (inj url_prepared) in Heq. by subst q.
    + intros H. by apply list_elem_of_fmap_2.
Qed.

(** C7. A range of years that lies entirely before 1950 gives the single
    label "previous-1950". *)
Theorem c7_before_1950 (annee_debut annee_fin : Z) :
  annee_fin <= 1949 -> annee_debut <= annee_fin ->
  periodes annee_debut annee_fin = ["previous-1950"]
  /\ generer_urls_parquet_quotidien annee_debut annee_fin
     = ([base_url +:+ "quotidien.previous-1950.parquet"],
        [base_url +:+ "quotidien.previous-1950.prepared.parquet"]).
Proof.
  intros Hfin Hdebut.
  assert (Hp : periodes annee_debut annee_fin = ["previous-1950"])
    by (cas_periodes; reflexivity).
  split; [exact Hp|]. rewrite generer_urls_fmap, Hp. reflexivity.
Qed.

Lemma c7_before_1950_witness :
  (1949 <= 1949 /\ 1900 <= 1949)
  /\ periodes 1900 1949 = ["previous-1950"]
  /\ generer_urls_parquet_quotidien 1900 1949
     = ([base_url +:+ "quotidien.previous-1950.parquet"],
        [base_url +:+ "quotidien.previous-1950.prepared.parquet"]).
Proof. split; [lia | apply (c7_before_1950 1900 1949); lia]. Defined.

(** C8. Each selected label gives two URLs, the raw one and the prepared
    one: the two lists have the length of the list of labels, and at every
    position they hold the two URLs of the label at that position. *)
Theorem c8_two_urls_per_label (annee_debut annee_fin : Z) :
  let labels := periodes annee_debut annee_fin in
  let '(urls, urls_prepared) :=
    generer_urls_parquet_quotidien annee_debut annee_fin in
  length urls = length labels
  /\ length urls_prepared = length labels
  /\ length urls = length urls_prepared
  /\ (forall i : nat,
        urls !! i
        = (fun label => base_url +:+ "quotidien." +:+ label +:+ ".parquet")
            <$> labels !! i)
  /\ (forall i : nat,
        urls_prepared !! i
        = (fun label =>
             base_url +:+ "quotidien." +:+ label +:+ ".prepared.parquet")
            <$> labels !! i)
  /\ (forall (i : nat) (u v : string),
        urls !! i = Some u -> urls_prepared !! i = Some v -> u <> v).
Proof.
  intros labels. rewrite generer_urls_fmap. fold labels.
  repeat split.
  - by rewrite length_fmap.
  - by rewrite length_fmap.
  - by rewrite !length_fmap.
  - intros i. by rewrite list_lookup_fmap.
  - intros i. by rewrite list_lookup_fmap.
  - intros i u v. rewrite !list_lookup_fmap.
    destruct (labels !! i) as [p|]; simpl; [|done].
    intros [= <-] [= <-]. apply url_brut_prepared_distinct.
Qed.

(** C9. Whatever the two years, the list of labels has no duplicate and
    follows the chronological order of the table (it is a subsequence of
    "previous-1950", the decades in ascending order, the "latest-" labels),
    so that neither URL list has a duplicate. *)
Theorem c9_labels_ordered_NoDup (annee_debut annee_fin : Z) :
  NoDup (periodes annee_debut annee_fin)
  /\ periodes annee_debut annee_fin `sublist_of`
       [ "previous-1950";
         "1950-1959"; "1960-1969"; "1970-1979"; "1980-1989";
         "1990-1999"; "2000-2009"; "2010-2019"; "2020-2021";
         "latest-2022-2023"; "latest-2023-2024"; "latest-2024-2025" ]
  /\ NoDup (generer_urls_parquet_quotidien annee_debut annee_fin).1
  /\ NoDup (generer_urls_parquet_quotidien annee_debut annee_fin).2.
Proof.
  pose proof (periodes_sublist annee_debut annee_fin) as Hsub.
  assert (Hnd : NoDup (periodes annee_debut annee_fin))
    by (eapply sublist_NoDup; [exact toutes_periodes_NoDup | exact Hsub]).
  split; [exact Hnd|]. split; [exact Hsub|].
  rewrite generer_urls_fmap. simpl.
  split; by apply (NoDup_fmap_2 _).
Qed.

(** C10. The function checks nothing about the two years: it returns a pair
    of lists for every input, and for some inputs whose first year is after
    the last one, such as (2000, 1990), the lists are not empty. *)
Theorem c10_no_validation :
  (forall annee_debut annee_fin : Z,
      exists urls urls_prepared : list string,
        generer_urls_parquet_quotidien annee_debut annee_fin
        = (urls, urls_prepared))
  /\ (exists annee_debut annee_fin : Z,
        annee_debut > annee_fin
        /\ (generer_urls_parquet_quotidien annee_debut annee_fin).1 <> []
        /\ (generer_urls_parquet_quotidien annee_debut annee_fin).2 <> [])
  /\ periodes 2000 1990
     = ["1990-1999"; "2000-2009"; "2010-2019"; "2020-2021"]
  /\ length (generer_urls_parquet_quotidien 2000 1990).1 = 4%nat
  /\ length (generer_urls_parquet_quotidien 2000 1990).2 = 4%nat.
Proof.
  split; [|split; [|split; [|split]]].
  - intros annee_debut annee_fin. rewrite generer_urls_fmap. eauto.
  - exists 2000, 1990. split; [lia|]. split; discriminate.
  - reflexivity.
  - reflexivity.
  - reflexivity.
Qed.

(** ** More on the table of labels *)

(** The list of labels, block by block. *)
Lemma periodes_blocks (annee_debut annee_fin : Z) :
  periodes annee_debut annee_fin
  = (if annee_debut <=? 1949 then ["previous-1950"] else [])
    ++ (if (annee_debut <=? 1989) && (annee_fin >=? 1950)
        then ["1950-1959"; "1960-1969"; "1970-1979"; "1980-1989"] else [])
    ++ (if (annee_debut <=? 2021) && (annee_fin >=? 1990)
        then ["1990-1999"; "2000-2009"; "2010-2019"; "2020-2021"] else [])
    ++ (if annee_fin >=? 2022
        then ["latest-2022-2023"; "latest-2023-2024"; "latest-2024-2025"]
        else []).
Proof.
  unfold periodes.
  destruct (annee_debut <=? 1949),
    ((annee_debut <=? 1989) && (annee_fin >=? 1950)),
    ((annee_debut <=? 2021) && (annee_fin >=? 1990)),
    (annee_fin >=? 2022); reflexivity.
Qed.

(** The comparisons of a goal, as a case analysis. *)
Ltac cas_gardes :=
  repeat match goal with
         | |- context [Z.leb ?a ?b] => destruct (Z.leb_spec a b)
         | |- context [Z.geb ?a ?b] =>
             rewrite (Z.geb_leb a b); destruct (Z.leb_spec b a)
         end;
  simpl; try lia.

(** Which labels a pair of years selects. *)
Lemma elem_of_periodes (annee_debut annee_fin : Z) (label : string) :
  label ∈ periodes annee_debut annee_fin
  <-> (label = "previous-1950" /\ annee_debut <= 1949)
      \/ (label ∈ ["1950-1959"; "1960-1969"; "1970-1979"; "1980-1989"]
          /\ annee_debut <= 1989 /\ 1950 <= annee_fin)
      \/ (label ∈ ["1990-1999"; "2000-2009"; "2010-2019"; "2020-2021"]
          /\ annee_debut <= 2021 /\ 1990 <= annee_fin)
      \/ (label ∈ ["latest-2022-2023"; "latest-2023-2024"; "latest-2024-2025"]
          /\ 2022 <= annee_fin).
Proof.
  rewrite periodes_blocks, !elem_of_app.
  assert (H1 : label ∈ (if annee_debut <=? 1949
                        then ["previous-1950"] else [])
               <-> label = "previous-1950" /\ annee_debut <= 1949)
    by (cas_gardes; rewrite ?elem_of_cons, ?elem_of_nil; intuition lia).
  assert (H2 : forall (a b : Z) (l : list string),
             label ∈ (if (annee_debut <=? a) && (annee_fin >=? b)
                      then l else [])
             <-> label ∈ l /\ annee_debut <= a /\ b <= annee_fin)
    by (intros a b l; cas_gardes; rewrite ?elem_of_nil; intuition lia).
  assert (H3 : forall l : list string,
             label ∈ (if annee_fin >=? 2022 then l else [])
             <-> label ∈ l /\ 2022 <= annee_fin)
    by (intros l; cas_gardes; rewrite ?elem_of_nil; intuition lia).
  rewrite H1, !H2, H3. reflexivity.
Qed.

(** X1. The list of labels is empty only for some ranges whose first year is
    after the last one; a range with [annee_debut <= annee_fin] always gives
    at least one label, hence at least one URL of each kind. *)
Theorem periodes_empty_iff (annee_debut annee_fin : Z) :
  (periodes annee_debut annee_fin = []
   <-> (1950 <= annee_debut <= 1989 /\ annee_fin <= 1949)
       \/ (1990 <= annee_debut <= 2021 /\ annee_fin <= 1989)
       \/ (2022 <= annee_debut /\ annee_fin <= 2021))
  /\ (annee_debut <= annee_fin ->
      (generer_urls_parquet_quotidien annee_debut annee_fin).1 <> []
      /\ (generer_urls_parquet_quotidien annee_debut annee_fin).2 <> []).
Proof.
  split.
  - cas_periodes; split; try discriminate; try lia; reflexivity.
  - intros Hle. rewrite generer_urls_fmap. simpl.
    assert (periodes annee_debut annee_fin <> [])
      by (cas_periodes; discriminate).
    destruct (periodes annee_debut annee_fin); [done|]. split; discriminate.
Qed.

(** X2. Widening the range of years only adds labels: the labels of the smaller
    range appear, in the same order, among those of the larger one. *)
Theorem periodes_widen (annee_debut annee_fin annee_debut' annee_fin' : Z) :
  annee_debut' <= annee_debut -> annee_fin <= annee_fin' ->
  periodes annee_debut annee_fin
    `sublist_of` periodes annee_debut' annee_fin'.
Proof.
  intros Hd Hf. rewrite !periodes_blocks.
  repeat apply sublist_app; cas_gardes;
    first [ reflexivity | apply sublist_nil_l ].
Qed.

Lemma periodes_widen_witness :
  (1950 <= 1990 /\ 2020 <= 2025)
  /\ periodes 1990 2020 `sublist_of` periodes 1950 2025.
Proof. split; [lia | apply (periodes_widen 1990 2020 1950 2025); lia]. Defined.

(** X3. The labels are selected by blocks, not one by one: a range that lies
    inside 1990-2021 gives the four labels of the block, also those of the
    decades it does not touch. *)
Theorem periodes_block_1990_2021 (annee_debut annee_fin : Z) :
  1990 <= annee_debut -> annee_debut <= annee_fin -> annee_fin <= 2021 ->
  periodes annee_debut annee_fin
  = ["1990-1999"; "2000-2009"; "2010-2019"; "2020-2021"].
Proof. intros H1 H2 H3. cas_periodes; reflexivity. Qed.

Lemma periodes_block_1990_2021_witness :
  (1990 <= 1990 /\ 1990 <= 1995 /\ 1995 <= 2021)
  /\ periodes 1990 1995
     = ["1990-1999"; "2000-2009"; "2010-2019"; "2020-2021"].
Proof.
  split; [lia | apply (periodes_block_1990_2021 1990 1995); lia].
Defined.

(** X4. A range that starts in 2022 or later gives the three "latest-" labels
    and nothing else. *)
Theorem periodes_from_2022 (annee_debut annee_fin : Z) :
  2022 <= annee_debut -> annee_debut <= annee_fin ->
  periodes annee_debut annee_fin
  = ["latest-2022-2023"; "latest-2023-2024"; "latest-2024-2025"].
Proof. intros H1 H2. cas_periodes; reflexivity. Qed.

Lemma periodes_from_2022_witness :
  (2022 <= 2023 /\ 2023 <= 2024)
  /\ periodes 2023 2024
     = ["latest-2022-2023"; "latest-2023-2024"; "latest-2024-2025"].
Proof. split; [lia | apply (periodes_from_2022 2023 2024); lia]. Defined.

(** X5. At most twelve labels are returned, and all twelve exactly when the
    range starts before 1950 and ends in 2022 or later. *)
Theorem periodes_length (annee_debut annee_fin : Z) :
  (length (periodes annee_debut annee_fin) <= 12)%nat
  /\ (length (periodes annee_debut annee_fin) = 12%nat
      <-> annee_debut <= 1949 /\ 2022 <= annee_fin)
  /\ length (generer_urls_parquet_quotidien annee_debut annee_fin).1
     = length (periodes annee_debut annee_fin)
  /\ length (generer_urls_parquet_quotidien annee_debut annee_fin).2
     = length (periodes annee_debut annee_fin).
Proof.
  split; [|split; [|split]].
  - apply (sublist_length _ _ (periodes_sublist annee_debut annee_fin)).
  - cas_periodes; split; try discriminate; try lia; reflexivity.
  - rewrite generer_urls_fmap. simpl. apply length_fmap.
  - rewrite generer_urls_fmap. simpl. apply length_fmap.
Qed.

Lemma tables_disjoint :
  Forall (fun u => u ∉ url_prepared <$> toutes_periodes)
         (url_brut <$> toutes_periodes).
Proof. apply (bool_decide_unpack _). vm_compute. exact I. Qed.

(** X6. No URL is in both returned lists. *)
Theorem urls_bruts_prepared_disjoint (annee_debut annee_fin : Z) :
  Forall (fun u => u ∉ (generer_urls_parquet_quotidien annee_debut annee_fin).2)
         (generer_urls_parquet_quotidien annee_debut annee_fin).1.
Proof.
  rewrite generer_urls_fmap. simpl. apply Forall_forall. intros u Hb Hp.
  pose proof (periodes_sublist annee_debut annee_fin) as Hsub.
  assert (Hb' : u ∈ url_brut <$> toutes_periodes)
    by (eapply elem_of_sublist; [exact Hb | by apply fmap_sublist]).
  assert (Hp' : u ∈ url_prepared <$> toutes_periodes)
    by (eapply elem_of_sublist; [exact Hp | by apply fmap_sublist]).
  pose proof tables_disjoint as HT. rewrite Forall_forall in HT.
  exact (HT u Hb' Hp').
Qed.

(** X7. Every year of the range is served: for a year [annee] with
    [annee_debut <= annee <= annee_fin], the file that holds it is among the
    labels, and from 2022 on the three "latest-" files are. *)
Theorem periodes_cover_range (annee_debut annee_fin annee : Z) :
  annee_debut <= annee -> annee <= annee_fin ->
  (forall label : string,
      periode_de annee = Some label ->
      label ∈ periodes annee_debut annee_fin)
  /\ (2022 <= annee ->
      Forall (fun label => label ∈ periodes annee_debut annee_fin)
             ["latest-2022-2023"; "latest-2023-2024"; "latest-2024-2025"]).
Proof.
  intros Hd Hf. split.
  - intros label. unfold periode_de.
    repeat match goal with
           | |- context [if Z.leb ?a ?b then _ else _] =>
               destruct (Z.leb_spec a b); cbv iota
           end;
      intros [= <-]; apply elem_of_periodes;
      rewrite ?elem_of_cons; intuition lia.
  - intros Hy. repeat constructor; apply elem_of_periodes;
      rewrite ?elem_of_cons; intuition lia.
Qed.

Lemma periodes_cover_range_witness :
  (1985 <= 1987 /\ 1987 <= 1995)
  /\ (forall label : string,
         periode_de 1987 = Some label -> label ∈ periodes 1985 1995)
  /\ (2022 <= 1987 ->
      Forall (fun label => label ∈ periodes 1985 1995)
             ["latest-2022-2023"; "latest-2023-2024"; "latest-2024-2025"]).
Proof.
  split; [lia | apply (periodes_cover_range 1985 1995 1987); lia].
Defined.

(** ** What the script prints and writes *)

Lemma affiche_print (ligne : string) : affiche (print ligne) [ligne].
Proof. intros m. reflexivity. Qed.

Lemma affiche_passer : affiche passer [].
Proof. intros [fs out]. unfold passer. simpl. by rewrite app_nil_r. Qed.

Lemma affiche_seq (c1 c2 : Monde -> Monde) (l1 l2 : list string) :
  affiche c1 l1 -> affiche c2 l2 -> affiche (c1 ;;; c2) (l1 ++ l2).
Proof.
  intros H1 H2 m. unfold seq. rewrite H1, H2. simpl. by rewrite app_assoc.
Qed.

Lemma affiche_pour {A : Type} (l : list A) (g : A -> string) :
  affiche (pour l (fun x => print (g x))) (g <$> l).
Proof.
  unfold pour. induction l as [|x l IH] using rev_ind; intros m.
  - simpl. destruct m. simpl. by rewrite app_nil_r.
  - rewrite foldl_snoc, IH, fmap_app. unfold print. simpl.
    by rewrite app_assoc.
Qed.

Lemma affiche_ext (c : Monde -> Monde) (l l' : list string) :
  l = l' -> affiche c l -> affiche c l'.
Proof. by intros ->. Qed.

Lemma enumerate_imap {A : Type} (start : Z) (l : list A) :
  enumerate start l = imap (fun i x => (start + Z.of_nat i, x)) l.
Proof.
  revert start. induction l as [|x l IH]; intros start; simpl; [done|].
  rewrite Z.add_0_r, IH. f_equal. apply imap_ext. intros i y _. simpl.
  f_equal. lia.
Qed.

Lemma affiche_pour_enumerate (h : Z -> string -> string) (l : list string)
    (start : Z) :
  affiche (pour (enumerate start l) (fun '(i, x) => print (h i x)))
          (imap (fun i x => h (start + Z.of_nat i) x) l).
Proof.
  unfold pour. revert start.
  induction l as [|x l IH]; intros start m; simpl.
  - destruct m. simpl. by rewrite app_nil_r.
  - rewrite IH. unfold print. simpl. rewrite Z.add_0_r, <- app_assoc. simpl.
    do 2 f_equal. f_equal. apply imap_ext. intros i y _. simpl.
    f_equal. lia.
Qed.

Lemma affiche_lignes_de (c : Monde -> Monde) (l : list string) :
  affiche c l -> lignes_de c = l.
Proof. intros H. unfold lignes_de. by rewrite H. Qed.

(** Builds the list of the lines printed by a sequence of [print]s. *)
Ltac lignes_affichees :=
  repeat first
    [ apply affiche_print
    | apply affiche_passer
    | apply affiche_pour_enumerate
    | apply affiche_pour
    | eapply affiche_seq ].

Lemma affiche_entete (annee_debut annee_fin : Z) :
  affiche (entete annee_debut annee_fin)
          (lignes_de (entete annee_debut annee_fin)).
Proof.
  eapply affiche_ext; [|unfold entete; lignes_affichees]. reflexivity.
Qed.

Lemma affiche_pied : affiche pied (lignes_de pied).
Proof. eapply affiche_ext; [|unfold pied; lignes_affichees]. reflexivity. Qed.

(** X8. With one of the three known formats, [afficher_urls] prints, between
    the same heading and the same closing text: in "texte", the prepared
    URLs then the raw ones, each list numbered from 1 in the order of the
    list; in "json", the one string that [json.dumps] makes of the range and
    the two lists; in "python", each URL between double quotes, indented and
    followed by a comma. It writes no file. *)
Theorem afficher_urls_formats (json_dumps : Rapport -> string)
    (annee_debut annee_fin : Z) :
  let urls_brut := (generer_urls_parquet_quotidien annee_debut annee_fin).1 in
  let urls_prepared :=
    (generer_urls_parquet_quotidien annee_debut annee_fin).2 in
  affiche (afficher_urls json_dumps annee_debut annee_fin "texte")
    (lignes_de (entete annee_debut annee_fin)
       ++ [str_mul "-" 80; "FICHIERS PRÉPARÉS (recommandés):"; str_mul "-" 80]
       ++ numeroter urls_prepared
       ++ [""; str_mul "-" 80; "FICHIERS BRUTS (alternatifs):"; str_mul "-" 80]
       ++ numeroter urls_brut
       ++ lignes_de pied)
  /\ affiche (afficher_urls json_dumps annee_debut annee_fin "json")
       (lignes_de (entete annee_debut annee_fin)
          ++ [json_dumps
                {| periode := pretty annee_debut +:+ "-" +:+ pretty annee_fin;
                   fichiers_prepares := urls_prepared;
                   fichiers_bruts := urls_brut;
                   note := "Filtrer par département 67 après téléchargement" |}]
          ++ lignes_de pied)
  /\ affiche (afficher_urls json_dumps annee_debut annee_fin "python")
       (lignes_de (entete annee_debut annee_fin)
          ++ ["# Liste des URLs (fichiers préparés)"; "urls_prepared = ["]
          ++ ((fun u => "    " +:+ guillemet +:+ u +:+ guillemet +:+ ",")
                <$> urls_prepared)
          ++ ["]"; ""; "# Liste des URLs (fichiers bruts)"; "urls_brut = ["]
          ++ ((fun u => "    " +:+ guillemet +:+ u +:+ guillemet +:+ ",")
                <$> urls_brut)
          ++ ["]"]
          ++ lignes_de pied).
Proof.
  intros urls_brut urls_prepared. subst urls_brut urls_prepared.
  unfold afficher_urls. rewrite generer_urls_fmap. cbv beta iota. simpl fst.
  simpl snd.
  split; [|split].
  - eapply affiche_ext;
      [|eapply affiche_seq; [apply affiche_entete|];
        eapply affiche_seq; [|apply affiche_pied];
        change (String.eqb "texte" "texte") with true; cbv iota;
        lignes_affichees].
    unfold numeroter. rewrite <- !app_assoc. reflexivity.
  - eapply affiche_ext;
      [|eapply affiche_seq; [apply affiche_entete|];
        eapply affiche_seq; [|apply affiche_pied];
        change (String.eqb "json" "texte") with false;
        change (String.eqb "json" "json") with true; cbv iota;
        lignes_affichees].
    reflexivity.
  - eapply affiche_ext;
      [|eapply affiche_seq; [apply affiche_entete|];
        eapply affiche_seq; [|apply affiche_pied];
        change (String.eqb "python" "texte") with false;
        change (String.eqb "python" "json") with false;
        change (String.eqb "python" "python") with true; cbv iota;
        lignes_affichees].
    rewrite <- !app_assoc. reflexivity.
Qed.

Lemma url_starts_with_h (annee_debut annee_fin : Z) (u : string) :
  u ∈ (generer_urls_parquet_quotidien annee_debut annee_fin).1
  \/ u ∈ (generer_urls_parquet_quotidien annee_debut annee_fin).2 ->
  exists reste : string, u = String "h"%char reste.
Proof.
  rewrite generer_urls_fmap. simpl.
  intros [(p & -> & _)%list_elem_of_fmap | (p & -> & _)%list_elem_of_fmap];
    eexists; reflexivity.
Qed.

Ltac pas_de_h :=
  let reste := fresh "reste" in
  let H := fresh "H" in
  intros reste H; vm_compute in H; discriminate H.

(** X9. With any other format, [afficher_urls] does not fail: it prints the
    heading and the closing text only, and none of the lines it prints is
    one of the URLs. *)
Theorem afficher_urls_format_inconnu (json_dumps : Rapport -> string)
    (annee_debut annee_fin : Z) (format_sortie : string) :
  format_sortie <> "texte" -> format_sortie <> "json" ->
  format_sortie <> "python" ->
  affiche (afficher_urls json_dumps annee_debut annee_fin format_sortie)
          (lignes_de (entete annee_debut annee_fin) ++ lignes_de pied)
  /\ Forall
       (fun ligne =>
          (ligne ∉ (generer_urls_parquet_quotidien annee_debut annee_fin).1)
          /\ (ligne ∉ (generer_urls_parquet_quotidien annee_debut annee_fin).2))
       (lignes_de (entete annee_debut annee_fin) ++ lignes_de pied).
Proof.
  intros Ht Hj Hp. split.
  - unfold afficher_urls. rewrite generer_urls_fmap. cbv beta iota.
    apply String.eqb_neq in Ht, Hj, Hp. rewrite Ht, Hj, Hp.
    eapply affiche_ext;
      [|eapply affiche_seq; [apply affiche_entete|];
        eapply affiche_seq; [apply affiche_passer | apply affiche_pied]].
    reflexivity.
  - assert (Hh : Forall (fun ligne => forall reste, ligne <> String "h"%char reste)
                   (lignes_de (entete annee_debut annee_fin)
                      ++ lignes_de pied)).
    { apply Forall_app. split;
        unfold lignes_de; cbn [entete pied seq print sortie fichiers app];
        repeat (apply Forall_cons; split; [pas_de_h|]); constructor. }
    eapply Forall_impl; [exact Hh|]. intros ligne Hl. simpl in Hl.
    split; intros Hin.
    + destruct (url_starts_with_h annee_debut annee_fin ligne (or_introl Hin))
        as [reste ->]. by apply (Hl reste).
    + destruct (url_starts_with_h annee_debut annee_fin ligne (or_intror Hin))
        as [reste ->]. by apply (Hl reste).
Qed.

Lemma afficher_urls_format_inconnu_witness :
  ("csv" <> "texte" /\ "csv" <> "json" /\ "csv" <> "python")
  /\ affiche (afficher_urls (fun _ => "") 1990 2020 "csv")
             (lignes_de (entete 1990 2020) ++ lignes_de pied)
  /\ Forall
       (fun ligne =>
          (ligne ∉ (generer_urls_parquet_quotidien 1990 2020).1)
          /\ (ligne ∉ (generer_urls_parquet_quotidien 1990 2020).2))
       (lignes_de (entete 1990 2020) ++ lignes_de pied).
Proof.
  split; [repeat split; discriminate|].
  apply (afficher_urls_format_inconnu (fun _ => "") 1990 2020 "csv");
    discriminate.
Defined.

(** ** The saved file *)

Lemma append_assoc (a b c : string) : (a +:+ b) +:+ c = a +:+ (b +:+ c).
Proof.
  induction a as [|x a IH]; [reflexivity|].
  change (String x ((a +:+ b) +:+ c) = String x (a +:+ (b +:+ c))).
  by rewrite IH.
Qed.

Lemma lignes_String (c : ascii) (s : string) :
  lignes (String c s)
  = if Ascii.eqb c (ascii_of_nat 10) then "" :: lignes s
    else match lignes s with
         | l :: ls => String c l :: ls
         | [] => [String c ""]
         end.
Proof. reflexivity. Qed.

(** A line without newline, followed by a newline, is the first line. *)
Lemma lignes_append_line (a s : string) :
  sans_saut a = true -> lignes (a +:+ nl +:+ s) = a :: lignes s.
Proof.
  induction a as [|c a IH]; intros Ha.
  - reflexivity.
  - change (sans_saut (String c a))
      with (negb (Ascii.eqb c (ascii_of_nat 10)) && sans_saut a) in Ha.
    apply andb_prop in Ha as [Hc Ha].
    change (String c a +:+ nl +:+ s) with (String c (a +:+ nl +:+ s)).
    rewrite lignes_String, (IH Ha).
    by destruct (Ascii.eqb c (ascii_of_nat 10)).
Qed.

Lemma lignes_joindre (l : list string) (s : string) :
  Forall (fun ligne => sans_saut ligne = true) l ->
  lignes (joindre l +:+ s) = l ++ lignes s.
Proof.
  induction 1 as [|a l Ha _ IH]; [reflexivity|].
  change (joindre (a :: l)) with (a +:+ nl +:+ joindre l).
  rewrite !append_assoc, (lignes_append_line _ _ Ha), IH. reflexivity.
Qed.

Lemma foldl_write (urls : list string) (f : string) :
  foldl (fun f url => write f (url +:+ nl)) f urls = f +:+ joindre urls.
Proof.
  revert f. induction urls as [|u urls IH]; intros f.
  - simpl. induction f as [|c f IHf]; [reflexivity|].
    change (String c f = String c (f +:+ "")). by rewrite <- IHf.
  - change (foldl (fun f url => write f (url +:+ nl)) (write f (u +:+ nl)) urls
            = f +:+ (u +:+ nl +:+ joindre urls)).
    rewrite IH. unfold write. by rewrite !append_assoc.
Qed.

Lemma sans_saut_append (a b : string) :
  sans_saut (a +:+ b) = sans_saut a && sans_saut b.
Proof.
  induction a as [|c a IH]; [reflexivity|].
  change (negb (Ascii.eqb c (ascii_of_nat 10)) && sans_saut (a +:+ b)
          = negb (Ascii.eqb c (ascii_of_nat 10)) && sans_saut a && sans_saut b).
  rewrite IH. by rewrite andb_assoc.
Qed.

Lemma sans_saut_pretty_N_go (x : N) (s : string) :
  sans_saut s = true -> sans_saut (pretty_N_go x s) = true.
Proof.
  revert s. induction (N.lt_wf_0 x) as [x _ IH]; intros s Hs.
  assert (x = 0 \/ 0 < x)%N as [->|Hx] by lia.
  - by rewrite pretty_N_go_0.
  - rewrite pretty_N_go_step by done. apply IH; [by apply N.div_lt|].
    change (negb (Ascii.eqb (pretty_N_char (x `mod` 10)) (ascii_of_nat 10))
            && sans_saut s = true).
    rewrite Hs. unfold pretty_N_char. by repeat case_match.
Qed.

Lemma sans_saut_pretty_Z (z : Z) : sans_saut (pretty z) = true.
Proof.
  assert (HN : forall p : positive, sans_saut (pretty (N.pos p)) = true).
  { intros p. unfold pretty, pretty_N. case_decide; [done|].
    by apply sans_saut_pretty_N_go. }
  destruct z as [|p|p]; [reflexivity| apply HN |].
  change (pretty (Z.neg p)) with ("-" +:+ pretty (N.pos p)).
  rewrite sans_saut_append, HN. reflexivity.
Qed.

Lemma urls_sans_saut (annee_debut annee_fin : Z) :
  Forall (fun u => sans_saut u = true)
         (generer_urls_parquet_quotidien annee_debut annee_fin).1
  /\ Forall (fun u => sans_saut u = true)
            (generer_urls_parquet_quotidien annee_debut annee_fin).2.
Proof.
  rewrite generer_urls_fmap. simpl.
  pose proof (periodes_sublist annee_debut annee_fin) as Hsub.
  assert (Hb : Forall (fun u => sans_saut u = true)
                 (url_brut <$> toutes_periodes))
    by (repeat constructor).
  assert (Hp : Forall (fun u => sans_saut u = true)
                 (url_prepared <$> toutes_periodes))
    by (repeat constructor).
  rewrite Forall_forall in Hb, Hp.
  split; apply Forall_forall; intros u Hu.
  - apply Hb. eapply elem_of_sublist; [exact Hu | by apply fmap_sublist].
  - apply Hp. eapply elem_of_sublist; [exact Hu | by apply fmap_sublist].
Qed.

Lemma append_nil_r (s : string) : s +:+ "" = s.
Proof.
  induction s as [|c s IH]; [reflexivity|].
  change (String c (s +:+ "") = String c s). by rewrite IH.
Qed.

Lemma lignes_nl (s : string) : lignes (nl +:+ s) = "" :: lignes s.
Proof. reflexivity. Qed.

(** X10. When [open] succeeds, [sauvegarder_urls_fichier] replaces the text
    of the file opened and touches no other file. The lines of the new text
    are: three comment lines, an empty line, the title of the prepared
    files, the prepared URLs one per line, an empty line, the title of the
    raw files, the raw URLs one per line; the text ends with a newline. One
    line is then printed, which names the file. When [open] raises, the run
    ends on that exception: no file is written and nothing is printed. *)
Theorem sauvegarder_urls_fichier_contenu (annee_debut annee_fin : Z)
    (nom_fichier : string) (m : Monde) :
  let urls_brut := (generer_urls_parquet_quotidien annee_debut annee_fin).1 in
  let urls_prepared :=
    (generer_urls_parquet_quotidien annee_debut annee_fin).2 in
  let m' := sauvegarder_urls_fichier annee_debut annee_fin nom_fichier m in
  (forall fichier : string,
      open_w m nom_fichier = Ouvert fichier ->
      (exists contenu : string,
          fichiers m' !! fichier = Some contenu
          /\ lignes contenu
             = [ "# URLs Parquet - Données météo quotidiennes "
                   +:+ pretty annee_debut +:+ "-" +:+ pretty annee_fin;
                 "# Département 67 (Bas-Rhin)";
                 "# Note: Ces fichiers contiennent tous les départements";
                 "";
                 "# FICHIERS PRÉPARÉS (recommandés)" ]
               ++ urls_prepared
               ++ [""; "# FICHIERS BRUTS (alternatifs)"]
               ++ urls_brut
               ++ [""])
      /\ (forall autre : string,
            autre <> fichier -> fichiers m' !! autre = fichiers m !! autre)
      /\ sortie m'
         = sortie m ++ ["✓ URLs sauvegardées dans: " +:+ nom_fichier]
      /\ exception m' = exception m)
  /\ (forall classe : string,
        open_w m nom_fichier = Erreur classe ->
        fichiers m' = fichiers m
        /\ sortie m' = sortie m
        /\ exception m' = Some classe).
Proof.
  intros urls_brut urls_prepared m'.
  destruct (urls_sans_saut annee_debut annee_fin) as [Hb Hp].
  fold urls_brut in Hb. fold urls_prepared in Hp.
  subst m'. unfold sauvegarder_urls_fichier.
  destruct (generer_urls_parquet_quotidien annee_debut annee_fin)
    as [ub up]. subst urls_brut urls_prepared. cbn [fst snd] in *.
  split.
  - intros fichier ->. cbv beta iota zeta.
    unfold seq, print, fermer. cbn [fichiers sortie exception].
    split; [|split; [|split]].
    + eexists. split; [apply lookup_insert_eq|].
      rewrite !foldl_write. unfold write. rewrite !append_assoc.
      match goal with
      | |- lignes ("" +:+ ?x) = _ => change ("" +:+ x) with x
      end.
      rewrite <- (append_assoc "-" (pretty annee_fin)).
      rewrite <- (append_assoc (pretty annee_debut)
                    ("-" +:+ pretty annee_fin)).
      rewrite <- (append_assoc
                    "# URLs Parquet - Données météo quotidiennes ").
      rewrite lignes_append_line
        by (rewrite !sans_saut_append, !sans_saut_pretty_Z; reflexivity).
      rewrite !lignes_append_line by reflexivity.
      rewrite lignes_nl, lignes_append_line by reflexivity.
      rewrite (lignes_joindre _ _ Hp).
      rewrite lignes_nl, lignes_append_line by reflexivity.
      rewrite <- (append_nil_r (joindre ub)), (lignes_joindre _ _ Hb).
      reflexivity.
    + intros autre Hne. by rewrite lookup_insert_ne.
    + reflexivity.
    + reflexivity.
  - intros classe ->. cbv beta iota. done.
Qed.

(** ** The command line *)

Lemma afficher_urls_affiche (json_dumps : Rapport -> string)
    (annee_debut annee_fin : Z) (format_sortie : string) :
  exists l : list string,
    affiche (afficher_urls json_dumps annee_debut annee_fin format_sortie) l.
Proof.
  unfold afficher_urls. rewrite generer_urls_fmap. cbv beta iota.
  destruct (String.eqb format_sortie "texte");
    [|destruct (String.eqb format_sortie "json");
      [|destruct (String.eqb format_sortie "python")]];
    eexists;
    (eapply affiche_seq; [apply affiche_entete|];
     eapply affiche_seq; [|apply affiche_pied]);
    lignes_affichees.
Qed.

Lemma affiche_aide : exists l : list string, affiche aide l.
Proof. eexists. unfold aide. lignes_affichees. Qed.

(** X11. The script looks at its first argument only, and never reads the years
    from the command line: "--save" writes the URLs of 1950-2020 to
    "urls_parquet.txt" and prints no list, "--help" prints the usage,
    "--json" and "--python" print the lists of 1950-2020 in that format, and
    with any other first argument, or none, the text report of 1950-2020 is
    printed. *)
Theorem main_dispatch (json_dumps : Rapport -> string) (argv : list string) :
  (argv !! 1%nat = Some "--json" ->
   main json_dumps argv = afficher_urls json_dumps 1950 2020 "json")
  /\ (argv !! 1%nat = Some "--python" ->
      main json_dumps argv = afficher_urls json_dumps 1950 2020 "python")
  /\ (argv !! 1%nat = Some "--save" ->
      main json_dumps argv
      = sauvegarder_urls_fichier 1950 2020 "urls_parquet.txt")
  /\ (argv !! 1%nat = Some "--help" -> main json_dumps argv = aide)
  /\ ((forall a : string,
          argv !! 1%nat = Some a ->
          a ∉ ["--json"; "--python"; "--save"; "--help"]) ->
      main json_dumps argv = afficher_urls json_dumps 1950 2020 "texte").
Proof.
  unfold main.
  split; [|split; [|split; [|split]]].
  - destruct argv as [|a0 [|a1 rest]]; simpl; try discriminate.
    by intros [= ->].
  - destruct argv as [|a0 [|a1 rest]]; simpl; try discriminate.
    by intros [= ->].
  - destruct argv as [|a0 [|a1 rest]]; simpl; try discriminate.
    by intros [= ->].
  - destruct argv as [|a0 [|a1 rest]]; simpl; try discriminate.
    by intros [= ->].
  - intros H. destruct argv as [|a0 [|a1 rest]]; simpl; try reflexivity.
    specialize (H a1 eq_refl). rewrite !elem_of_cons in H.
    destruct (String.eqb_spec a1 "--json") as [->|_]; [tauto|].
    destruct (String.eqb_spec a1 "--python") as [->|_]; [tauto|].
    destruct (String.eqb_spec a1 "--save") as [->|_]; [tauto|].
    destruct (String.eqb_spec a1 "--help") as [->|_]; [tauto|].
    reflexivity.
Qed.

(** X12. Only "--save" writes a file: with any other command line the files are
    left as they are. *)
Theorem main_writes_only_on_save (json_dumps : Rapport -> string)
    (argv : list string) (m : Monde) :
  argv !! 1%nat <> Some "--save" ->
  fichiers (main json_dumps argv m) = fichiers m.
Proof.
  intros Hsave.
  assert (Haff : forall fmt : string,
             fichiers (afficher_urls json_dumps 1950 2020 fmt m) = fichiers m).
  { intros fmt.
    destruct (afficher_urls_affiche json_dumps 1950 2020 fmt) as [l Hl].
    by rewrite Hl. }
  destruct argv as [|a0 [|a1 rest]];
    [exact (Haff "texte") | exact (Haff "texte") |].
  change (main json_dumps (a0 :: a1 :: rest))
    with (if String.eqb a1 "--json"
          then afficher_urls json_dumps 1950 2020 "json"
          else if String.eqb a1 "--python"
          then afficher_urls json_dumps 1950 2020 "python"
          else if String.eqb a1 "--save"
          then sauvegarder_urls_fichier 1950 2020 "urls_parquet.txt"
          else if String.eqb a1 "--help" then aide
          else afficher_urls json_dumps 1950 2020 "texte").
  change (Some a1 <> Some "--save") in Hsave.
  destruct (String.eqb_spec a1 "--json"); [apply Haff|].
  destruct (String.eqb_spec a1 "--python"); [apply Haff|].
  destruct (String.eqb_spec a1 "--save") as [->|_]; [done|].
  destruct (String.eqb_spec a1 "--help"); [|apply Haff].
  destruct affiche_aide as [l Hl]. by rewrite Hl.
Qed.

Lemma main_writes_only_on_save_witness :
  let m := {| fichiers := {[ "urls_parquet.txt" := "old" ]};
              sortie := [];
              open_w := Ouvert;
              exception := None |} in
  ["lister_urls_parquet.py"; "--json"; "--save"] !! 1%nat <> Some "--save"
  /\ fichiers (main (fun _ => "{}")
                 ["lister_urls_parquet.py"; "--json"; "--save"] m)
     = fichiers m.
Proof.
  split; [discriminate|].
  apply (main_writes_only_on_save (fun _ => "{}")
           ["lister_urls_parquet.py"; "--json"; "--save"]).
  discriminate.
Defined.

End Loaddata3Facts.

(** * Properties of loaddata2.py *)

Module Loaddata2Facts.
Import Loaddata2.

Local Open Scope Q_scope.

(** ** Clipping *)



(** ** The sum of a column *)




(** ** The columns, day by day *)




(** The two examples of the specification, with t_base = 5. *)
Example gdd_example_at_base :
  gdd_cumul (frame_of [recorded "2023-01-01" 10 0]) 5 == 0.
Proof. reflexivity. Qed.

Example gdd_example_above_base :
  gdd_cumul (frame_of [recorded "2023-01-01" 20 10]) 5 == 10.
Proof. reflexivity. Qed.



(** ** More on the accumulator *)

Lemma gdd_available_nonneg (t_base : Q) (j : DailyTemperature) :
  0 <= gdd_available t_base j.
Proof.
  unfold gdd_available, gdd_formula.
  destruct (day_t_max j), (day_t_min j); try apply Qle_refl.
  apply Q.le_max_l.
Qed.




End Loaddata2Facts.

(** * Properties of loaddata2.py in binary64 *)

Module Loaddata2F64Facts.
Import Loaddata2F64.

Local Set Warnings "-inexact-float".

(** ** Floats *)

Lemma SFeqb_refl_not_nan (x : spec_float) :
  x <> S754_nan -> SFeqb x x = true.
Proof.
  destruct x as [s|s| |s m e]; intros H.
  - reflexivity.
  - by destruct s.
  - by destruct H.
  - unfold SFeqb, SFcompare.
    destruct s; rewrite Z.compare_refl, Pos.compare_cont_refl; reflexivity.
Qed.

(** The only NaN. *)
Lemma is_nan_eq (x : float) : is_nan x = true -> x = nan.
Proof.
  unfold is_nan. rewrite FloatAxioms.eqb_spec. intros H.
  apply Prim2SF_inj. change (Prim2SF nan) with S754_nan.
  destruct (Prim2SF x) as [s|s| |s m e] eqn:E; try reflexivity;
    rewrite SFeqb_refl_not_nan in H by discriminate; discriminate H.
Qed.

Lemma add_nan_l (y : float) : (nan + y)%float = nan.
Proof. apply Prim2SF_inj. rewrite add_spec. reflexivity. Qed.

Lemma add_nan_r (x : float) : (x + nan)%float = nan.
Proof.
  apply Prim2SF_inj. rewrite add_spec. change (Prim2SF nan) with S754_nan.
  by destruct (Prim2SF x).
Qed.

Lemma div_nan_l (y : float) : (nan / y)%float = nan.
Proof. apply Prim2SF_inj. rewrite div_spec. reflexivity. Qed.

Lemma sub_nan_l (y : float) : (nan - y)%float = nan.
Proof. apply Prim2SF_inj. rewrite sub_spec. reflexivity. Qed.

(** ** What [clip] returns *)




(** ** Exact sums *)



(** ** The columns, day by day *)

Lemma fmap_zip_with {A B C D : Type} (h : C -> D) (f : A -> B -> C)
    (a : list A) (b : list B) :
  h <$> zip_with f a b = zip_with (fun x y => h (f x y)) a b.
Proof.
  revert b. induction a as [|x a IH]; intros [|y b]; simpl; [done..|].
  by rewrite IH.
Qed.

Lemma zip_with_fmap_both {A A' B B' C : Type} (h : A' -> B' -> C)
    (f : A -> A') (g : B -> B') (a : list A) (b : list B) :
  zip_with h (f <$> a) (g <$> b) = zip_with (fun x y => h (f x) (g y)) a b.
Proof.
  revert b. induction a as [|x a IH]; intros [|y b]; simpl; [done..|].
  by rewrite IH.
Qed.

(** The column ['gdd_daily'] holds, row by row, the contribution of the
    day. *)
Lemma gdd_daily_jour (dates : list datetime) (x y : Series)
    (t_base : float) :
  gdd_daily {| date := dates; t_max := x; t_min := y |} t_base
  = zip_with (gdd_jour t_base) (cells x) (cells y).
Proof.
  unfold gdd_daily, series_clip, series_sub, t_mean, series_div, series_add,
    cells, gdd_jour.
  cbn [t_max t_min].
  destruct x as [a|a], y as [b|b];
    rewrite !fmap_zip_with, zip_with_fmap_both; reflexivity.
Qed.




(** ** The recursion of the pairwise sum *)

(** The fuel given by [pairwise_sum] is enough: more changes nothing. *)
Lemma pairwise_sum_rec_fuel (fuel fuel' : nat) (a : list float) :
  (length a <= fuel)%nat -> (length a <= fuel')%nat ->
  pairwise_sum_rec fuel a = pairwise_sum_rec fuel' a.
Proof.
  revert fuel' a. induction fuel as [|fuel IH]; intros fuel' a H H'.
  - destruct a; [|simpl in H; lia]. by destruct fuel'.
  - destruct fuel' as [|fuel'].
    { destruct a; [|simpl in H'; lia]. reflexivity. }
    cbn [pairwise_sum_rec].
    destruct (Nat.ltb_spec (length a) 8); [reflexivity|].
    destruct (Nat.leb_spec (length a) 128); [reflexivity|].
    assert (Hn2 : (0 < length a / 2 - (length a / 2) mod 8 < length a)%nat).
    { set (n := length a) in *.
      assert (n / 2 < n)%nat by (apply Nat.div_lt; lia).
      assert (64 <= n / 2)%nat by (apply Nat.div_le_lower_bound; lia).
      pose proof (Nat.mod_upper_bound (n / 2) 8). lia. }
    rewrite (IH fuel' (take _ a)), (IH fuel' (drop _ a));
      rewrite ?length_take, ?length_drop; try lia.
    reflexivity.
Qed.

(** ** The function *)

Section Function.

Variable to_datetime : string -> outcome datetime.
Variable to_datetime_index : list json -> outcome (list datetime).
Variable requests_get : string -> Params -> outcome json.

Abbreviation get_gdd :=
  (get_gdd_from_open_meteo to_datetime to_datetime_index requests_get).

(** The run that reaches line 37. *)
Lemma get_gdd_returns (lat lon : float) (date : string) (t_base : float)
    (parsed : datetime) (data : json) (times maxs mins : list json)
    (dates : list datetime) (x y : Series) :
  to_datetime date = Returned parsed ->
  requests_get url (params lat lon date parsed) = Returned data ->
  carries data times maxs mins ->
  to_datetime_index times = Returned dates ->
  length dates = length maxs -> length maxs = length mins ->
  as_series maxs = Some x -> as_series mins = Some y ->
  get_gdd lat lon date t_base
  = Returned (np_sum (fillna0 <$> zip_with (gdd_jour t_base)
                                           (cells x) (cells y))).
Proof.
  intros Hd Hr (block & Hb & Ht & Hmax & Hmin) Hi Hl1 Hl2 Hx Hy.
  unfold get_gdd_from_open_meteo.
  rewrite Hd. cbn [mbind outcome_bind]. rewrite Hr. cbn [mbind outcome_bind].
  rewrite Hb. cbn [mbind outcome_bind]. rewrite Ht. cbn [mbind outcome_bind].
  rewrite Hi. cbn [mbind outcome_bind].
  rewrite Hmax. cbn [mbind outcome_bind]. rewrite Hmin.
  cbn [mbind outcome_bind]. unfold pd_DataFrame.
  rewrite Hl1, Hl2, Nat.eqb_refl, Hx, Hy. cbn [andb mbind outcome_bind].
  unfold gdd_cumul, series_sum. by rewrite gdd_daily_jour.
Qed.


(** C2, amended. The function raises no error of its own, be it
    DataUnavailable or InvalidRange: an exception that leaves it is the
    KeyError or TypeError of a subscript, the ValueError of the data frame,
    or one raised by [pd.to_datetime] or by the request. When the reply is
    well formed, a day whose t_max or t_min is missing (NaN) counts for 0 in
    the sum that is returned. The range that is requested starts on January
    1 of the year of the target date and ends on that date. *)
Theorem c2_no_error_of_its_own (lat lon : float) (date : string)
    (t_base : float) :
  (forall e : string,
      get_gdd lat lon date t_base = Raised e ->
      e ∈ ["KeyError"; "TypeError"; "ValueError"]
      \/ to_datetime date = Raised e
      \/ (exists parsed : datetime,
             requests_get url (params lat lon date parsed) = Raised e)
      \/ (exists l : list json, to_datetime_index l = Raised e))
  /\ (forall (parsed : datetime) (data : json) (times maxs mins : list json)
            (dates : list datetime) (x y : Series),
        to_datetime date = Returned parsed ->
        requests_get url (params lat lon date parsed) = Returned data ->
        carries data times maxs mins ->
        to_datetime_index times = Returned dates ->
        length dates = length maxs -> length maxs = length mins ->
        as_series maxs = Some x -> as_series mins = Some y ->
        get_gdd lat lon date t_base
        = Returned (np_sum (fillna0 <$> zip_with (gdd_jour t_base)
                                                 (cells x) (cells y))))
  /\ (forall a b : float,
        is_nan a = true \/ is_nan b = true ->
        fillna0 (gdd_jour t_base (F a) (F b)) = 0%float)
  /\ (forall year month day : Z,
        start_date (params lat lon date (Timestamp year month day))
        = pretty year +:+ "-01-01"
        /\ end_date (params lat lon date (Timestamp year month day)) = date).
Proof.
  split; [|split; [|split]]; [| | |by intros].
  - intros e. unfold get_gdd_from_open_meteo.
    destruct (to_datetime date) as [parsed|e1|] eqn:Hd;
      cbn [mbind outcome_bind]; [|intros [= <-]; tauto|discriminate].
    destruct (requests_get _ _) as [data|e2|] eqn:Hr;
      cbn [mbind outcome_bind]; [|intros [= <-]; eauto 6|discriminate].
    assert (Hget : forall (v : json) (k : string) (c : string),
               getitem v k = Raised c -> c = "KeyError" \/ c = "TypeError").
    { intros v k c. unfold getitem.
      destruct v; try (intros [= <-]; tauto).
      destruct (_ !! _); [discriminate|]. intros [= <-]. tauto. }
    assert (Hin : forall c : string,
               c = "KeyError" \/ c = "TypeError" ->
               c ∈ ["KeyError"; "TypeError"; "ValueError"])
      by (intros c [-> | ->]; set_solver).
    destruct (getitem data "daily") as [block|e3|] eqn:Hb;
      cbn [mbind outcome_bind];
      [|intros [= <-]; left; eapply Hin, Hget, Hb|discriminate].
    destruct (getitem block "time") as [time|e4|] eqn:Ht;
      cbn [mbind outcome_bind];
      [|intros [= <-]; left; eapply Hin, Hget, Ht|discriminate].
    destruct time as [| | | | |l|]; cbn [mbind outcome_bind];
      try discriminate.
    destruct (to_datetime_index l) as [dates|e5|] eqn:Hi;
      cbn [mbind outcome_bind]; [|intros [= <-]; eauto 6|discriminate].
    destruct (getitem block "temperature_2m_max") as [maxs|e6|] eqn:Hmax;
      cbn [mbind outcome_bind];
      [|intros [= <-]; left; eapply Hin, Hget, Hmax|discriminate].
    destruct (getitem block "temperature_2m_min") as [mins|e7|] eqn:Hmin;
      cbn [mbind outcome_bind];
      [|intros [= <-]; left; eapply Hin, Hget, Hmin|discriminate].
    unfold pd_DataFrame.
    destruct maxs; try discriminate. destruct mins; try discriminate.
    destruct (_ && _); cbn [mbind outcome_bind];
      [|intros [= <-]; left; set_solver].
    destruct (as_series _); [|discriminate].
    destruct (as_series _); discriminate.
  - intros parsed data times maxs mins dates x y. apply get_gdd_returns.
  - intros a b [Ha|Hb]; unfold gdd_jour.
    + rewrite (is_nan_eq a Ha), add_nan_l, div_nan_l, sub_nan_l.
      reflexivity.
    + rewrite (is_nan_eq b Hb), add_nan_r, div_nan_l, sub_nan_l.
      reflexivity.
Qed.

(** X13. How the function fails, in the order of the code: on the target
    date that does not parse, before any request; on the request; on a reply
    that is no object or has no daily block; on the dates of the reply that
    do not parse, whatever the temperatures are; and with ValueError on
    three arrays that do not have one length, whatever they hold. *)
Theorem get_gdd_failures (lat lon : float) (date : string)
    (t_base : float) :
  (forall e : string,
      to_datetime date = Raised e -> get_gdd lat lon date t_base = Raised e)
  /\ (forall (parsed : datetime) (e : string),
        to_datetime date = Returned parsed ->
        requests_get url (params lat lon date parsed) = Raised e ->
        get_gdd lat lon date t_base = Raised e)
  /\ (forall (parsed : datetime) (data : json),
        to_datetime date = Returned parsed ->
        requests_get url (params lat lon date parsed) = Returned data ->
        ((forall m : gmap string json, data <> JObject m) ->
         get_gdd lat lon date t_base = Raised "TypeError")
        /\ (forall m : gmap string json,
              data = JObject m -> m !! "daily" = None ->
              get_gdd lat lon date t_base = Raised "KeyError")
        /\ (forall (block : json) (times : list json) (e : string),
              getitem data "daily" = Returned block ->
              getitem block "time" = Returned (JArray times) ->
              to_datetime_index times = Raised e ->
              get_gdd lat lon date t_base = Raised e)
        /\ (forall (times maxs mins : list json) (dates : list datetime),
              carries data times maxs mins ->
              to_datetime_index times = Returned dates ->
              ~ (length dates = length maxs /\ length maxs = length mins) ->
              get_gdd lat lon date t_base = Raised "ValueError")).
Proof.
  split; [|split].
  - intros e Hd. unfold get_gdd_from_open_meteo. by rewrite Hd.
  - intros parsed e Hd Hr. unfold get_gdd_from_open_meteo.
    rewrite Hd. cbn [mbind outcome_bind]. by rewrite Hr.
  - intros parsed data Hd Hr. unfold get_gdd_from_open_meteo.
    rewrite Hd. cbn [mbind outcome_bind]. rewrite Hr.
    cbn [mbind outcome_bind]. split; [|split; [|split]].
    + intros Hno. destruct data as [| | | | | |m]; try reflexivity.
      by destruct (Hno m).
    + intros m -> Hm. unfold getitem. by rewrite Hm.
    + intros block times e Hb Ht Hi. rewrite Hb. cbn [mbind outcome_bind].
      rewrite Ht. cbn [mbind outcome_bind]. by rewrite Hi.
    + intros times maxs mins dates (block & Hb & Ht & Hmax & Hmin) Hi Hlen.
      rewrite Hb. cbn [mbind outcome_bind]. rewrite Ht.
      cbn [mbind outcome_bind]. rewrite Hi. cbn [mbind outcome_bind].
      rewrite Hmax. cbn [mbind outcome_bind]. rewrite Hmin.
      cbn [mbind outcome_bind]. unfold pd_DataFrame.
      destruct (Nat.eqb_spec (length dates) (length maxs)) as [H1|H1];
        [|reflexivity].
      destruct (Nat.eqb_spec (length maxs) (length mins)) as [H2|H2];
        [|reflexivity].
      by destruct Hlen.
Qed.

End Function.




(** C2, as stated, fails. The reply has no record for the second day (both
    temperatures are null): the function fails with no DataUnavailable
    error, it returns 10, the contribution of the first day. *)
Lemma c2_null_day_counterexample :
  let out :=
    get_gdd_from_open_meteo
      (fun _ => Returned (Timestamp 2023 1 2))
      (fun l => Returned ((fun _ => Timestamp 2023 1 1) <$> l))
      (fun _ _ =>
         Returned (reply_of [JString "2023-01-01"; JString "2023-01-02"]
                     [JFloat 20; JNull] [JFloat 10; JNull]))
      48.8 2.49 "2023-01-02" 5 in
  out = Returned 10%float /\ out <> Raised "DataUnavailable".
Proof. split; [vm_compute; reflexivity | vm_compute; discriminate]. Qed.







End Loaddata2F64Facts.
